(** * Hot-spot reporter ([scripts/check-hotspots.py])

    A shallow embedding of the diagnostic script that loads a level
    document and prints the marker tiles of its [hot_spots] layers,
    followed by the properties the specification states about it.

    The script works on whatever [json.load] returns, so the embedding
    starts from the parsed JSON value and gives each Python operation the
    script uses (subscript by a string key, iteration, [==]/[!=] against
    a literal, [dict.get], f-string formatting, [print]) its behaviour on
    every kind of value, including the exceptions it raises.

    What the embedding leaves out: numbers are integers ([Z]), so a
    document with a non-integer number is outside it; a string is a
    sequence of [ascii], one per character, so it is exact for ASCII
    text only; writing to standard output always succeeds; and the ways
    [open] and [json.load] can fail are two, unreadable and unparsable. *)

From Stdlib Require Import ZArith List String Ascii Bool Lia.
From Stdlib Require Import DecimalString DecimalPos DecimalZ Sorting.Sorted.
Import ListNotations.

#[local] Set Warnings "-register-all".

Local Open Scope list_scope.
Local Open Scope string_scope.

(** ** Parsed documents *)

(** What [json.load] hands to the script, floats apart: there is no
    constructor for a number with a fraction or an exponent.  A [JDict]
    keeps its pairs in insertion order, which is the order Python
    iterates a dict in; the keys of a parsed dict are distinct, and a
    lookup takes the first pair with the key. *)
Inductive json : Type :=
| JNull
| JBool (b : bool)
| JInt (n : Z)
| JStr (s : string)
| JList (items : list json)
| JDict (pairs : list (string * json)).

(** ** Exceptions and the output monad *)

Inductive exn : Type :=
| KeyError (key : string)
| TypeError
| OSError
| JSONDecodeError.

Inductive outcome (A : Type) : Type :=
| Ret (a : A)
| Raise (e : exn).
Arguments Ret {A} a.
Arguments Raise {A} e.

(** A computation yields the strings handed to [print], in order, and
    either its value or the exception that stopped it.  What was printed
    before an exception stays printed.  [print] itself never raises: a
    string the output stream cannot encode is not modelled. *)
Definition Py (A : Type) : Type := (list string * outcome A)%type.

Definition ret {A} (a : A) : Py A := ([], Ret a).
Definition raise {A} (e : exn) : Py A := ([], Raise e).
Definition print (line : string) : Py unit := ([line], Ret tt).

Definition bind {A B} (m : Py A) (k : A -> Py B) : Py B :=
  match m with
  | (out1, Ret a) => let (out2, r) := k a in (out1 ++ out2, r)%list
  | (out1, Raise e) => (out1, Raise e)
  end.

Notation "x <- m ;; k" := (bind m (fun x => k))
  (at level 61, m at next level, right associativity).
Notation "m ;;; k" := (bind m (fun _ => k))
  (at level 61, right associativity).

Definition stdout {A} (m : Py A) : list string := fst m.
Definition result {A} (m : Py A) : outcome A := snd m.

(** The bytes written to standard output: every [print] call writes its
    argument and a newline. *)
Definition stdout_bytes {A} (m : Py A) : string :=
  String.concat EmptyString
    (map (fun line => line ++ String "010"%char EmptyString) (stdout m)).

(** ** The Python operations the script uses *)

Fixpoint dict_lookup (key : string) (pairs : list (string * json)) : option json :=
  match pairs with
  | [] => None
  | (k, v) :: rest => if String.eqb k key then Some v else dict_lookup key rest
  end.

(** [obj[key]] with a string key: a dict looks the key up, every other
    kind of value rejects a string subscript. *)
Definition getitem (obj : json) (key : string) : Py json :=
  match obj with
  | JDict pairs =>
      match dict_lookup key pairs with
      | Some v => ret v
      | None => raise (KeyError key)
      end
  | _ => raise TypeError
  end.

Fixpoint chars (s : string) : list json :=
  match s with
  | EmptyString => []
  | String c rest => JStr (String c EmptyString) :: chars rest
  end.

(** [iter(obj)]: a list yields its items, a dict its keys, a string its
    characters (one per [ascii]: for text beyond ASCII Python yields code
    points and [chars] bytes); nothing else is iterable. *)
Definition iter (obj : json) : Py (list json) :=
  match obj with
  | JList items => ret items
  | JDict pairs => ret (map (fun kv => JStr (fst kv)) pairs)
  | JStr s => ret (chars s)
  | _ => raise TypeError
  end.

(** [obj == lit] for a string literal. *)
Definition eq_str (obj : json) (lit : string) : bool :=
  match obj with
  | JStr s => String.eqb s lit
  | _ => false
  end.

(** [obj != lit] for an integer literal; [True] and [False] compare as
    1 and 0. *)
Definition ne_int (obj : json) (lit : Z) : bool :=
  match obj with
  | JInt n => negb (Z.eqb n lit)
  | JBool b => negb (Z.eqb (Z.b2z b) lit)
  | _ => true
  end.

(** [str(n)] for an integer. *)
Definition str_int (n : Z) : string := NilZero.string_of_int (Z.to_int n).

(** [f'{obj}']: lists and dicts are left out, the script never gets to
    print one (see [scan_cell]). *)
Definition format (obj : json) : option string :=
  match obj with
  | JNull => Some "None"
  | JBool true => Some "True"
  | JBool false => Some "False"
  | JInt n => Some (str_int n)
  | JStr s => Some s
  | JList _ | JDict _ => None
  end.

(** [for i, x in enumerate(xs)] over a loop-carried variable. *)
Fixpoint for_enumerate {S : Type} (idx : nat) (xs : list json)
    (body : nat -> json -> S -> Py S) (s : S) : Py S :=
  match xs with
  | [] => ret s
  | x :: rest => s' <- body idx x s ;; for_enumerate (Datatypes.S idx) rest body s'
  end.

(** [for x in xs] with nothing carried. *)
Fixpoint for_each (xs : list json) (body : json -> Py unit) : Py unit :=
  match xs with
  | [] => ret tt
  | x :: rest => body x ;;; for_each rest body
  end.

(** ** The script *)

Definition default_level_file : string := "public/assets/levels/level_0_1_sewer.json".

(** [sys.argv[1] if len(sys.argv) > 1 else '...'] *)
Definition level_file (argv : list string) : string :=
  match argv with
  | _ :: path :: _ => path
  | _ => default_level_file
  end.

Definition hot_spot_names : list (Z * string) :=
  [ (0, "NONE");
    (1, "GO_RIGHT"); (2, "GO_LEFT"); (3, "GO_UP"); (4, "GO_DOWN");
    (5, "GO_UP_RIGHT"); (6, "GO_UP_LEFT"); (7, "GO_DOWN_RIGHT"); (8, "GO_DOWN_LEFT");
    (9, "WAIT_SHORT"); (10, "WAIT_MEDIUM"); (11, "WAIT_LONG");
    (12, "ATTACK"); (13, "TALK"); (14, "WALK_AND_TALK");
    (15, "TAKE_CAMERA_FOCUS"); (16, "RELEASE_CAMERA_FOCUS");
    (17, "END_LEVEL"); (18, "GAME_EVENT");
    (-2, "DEATH"); (-3, "COLLECT") ]%Z.

Fixpoint names_lookup (key : Z) (table : list (Z * string)) : option string :=
  match table with
  | [] => None
  | (k, name) :: rest => if Z.eqb k key then Some name else names_lookup key rest
  end.

(** [hot_spot_names.get(val, default)] for a hashable [val]: the keys
    are integers, so only an integer (or a bool, which hashes and
    compares as one) can hit. *)
Definition names_get (val : json) (default : string) : string :=
  match val with
  | JInt n =>
      match names_lookup n hot_spot_names with Some name => name | None => default end
  | JBool b =>
      match names_lookup (Z.b2z b) hot_spot_names with Some name => name | None => default end
  | _ => default
  end.

(** The [print] of one reported cell. *)
Definition cell_line (row_idx col_idx : nat) (sval name : string) : string :=
  "  [" ++ str_int (Z.of_nat row_idx) ++ "][" ++ str_int (Z.of_nat col_idx) ++ "] = "
    ++ sval ++ " (" ++ name ++ ") -> pixel ("
    ++ str_int (Z.of_nat (col_idx * 32)) ++ ", " ++ str_int (Z.of_nat (row_idx * 32)) ++ ")".

(** Body of the inner loop.  A list or dict cell passes the [!=] tests
    and then makes [hot_spot_names.get] raise (unhashable key) before
    anything is printed. *)
Definition scan_cell (row_idx col_idx : nat) (val : json) (count : nat) : Py nat :=
  if ne_int val (-1) && ne_int val 0 then
    match format val with
    | None => raise TypeError
    | Some sval =>
        let name := names_get val ("TYPE_" ++ sval) in
        print (cell_line row_idx col_idx sval name) ;;;
        ret (count + 1)
    end
  else ret count.

(** Body of the outer loop. *)
Definition scan_row (row_idx : nat) (row : json) (count : nat) : Py nat :=
  cells <- iter row ;;
  for_enumerate 0 cells (scan_cell row_idx) count.

Definition header_line (path : string) : string := "Hot spots in " ++ path ++ ":".
Definition total_line (count : nat) : string :=
  "Total: " ++ str_int (Z.of_nat count) ++ " hot spots".

(** Body of [for layer in d['layers']]. *)
Definition report_layer (path : string) (layer : json) : Py unit :=
  ty <- getitem layer "type" ;;
  if eq_str ty "hot_spots" then
    print (header_line path) ;;;
    world <- getitem layer "world" ;;
    tiles <- getitem world "tiles" ;;
    rows <- iter tiles ;;
    count <- for_enumerate 0 rows scan_row 0 ;;
    print (total_line count)
  else ret tt.

(** The script from the parsed document on. *)
Definition report (path : string) (d : json) : Py unit :=
  layers <- getitem d "layers" ;;
  items <- iter layers ;;
  for_each items (report_layer path).

(** The whole script, against the command line and the file system.
    [open] fails on a path it cannot read; [json.load] is the library's
    parser, taken as a function of the file's content.  Whatever makes
    the parser give up (bad syntax, bytes that do not decode, a number or
    a nesting beyond its limits) is the one [JSONDecodeError] here. *)
Section Script.
Variable json_load : string -> option json.

Definition load (fs : string -> option string) (path : string) : Py json :=
  match fs path with
  | None => raise OSError
  | Some content =>
      match json_load content with
      | None => raise JSONDecodeError
      | Some d => ret d
      end
  end.

Definition main (argv : list string) (fs : string -> option string) : Py unit :=
  let path := level_file argv in
  d <- load fs path ;;
  report path d.
End Script.

(** ** Level documents as the specification describes them *)

(** A tile grid: rows of integer codes.  Nothing makes it rectangular. *)
Definition grid : Type := list (list Z).

Definition tiles_of (g : grid) : json :=
  JList (map (fun row => JList (map JInt row)) g).

(** [layer] is a hot-spots layer carrying the grid [g]. *)
Definition hot_spots_layer (layer : json) (g : grid) : Prop :=
  exists world,
    getitem layer "type" = ret (JStr "hot_spots") /\
    getitem layer "world" = ret world /\
    getitem world "tiles" = ret (tiles_of g).

(** [layer] has a [type] field, and it is not ["hot_spots"]. *)
Definition other_layer (layer : json) : Prop :=
  exists ty, getitem layer "type" = ret ty /\ eq_str ty "hot_spots" = false.

(** The layers of a document the way the reporter tells them apart. *)
Inductive layer_kind : Type :=
| HotSpots (g : grid)
| Other.

Definition layer_is (layer : json) (k : layer_kind) : Prop :=
  match k with
  | HotSpots g => hot_spots_layer layer g
  | Other => other_layer layer
  end.

(** [d] is a level document whose layers are [kinds], in order. *)
Definition level_document (d : json) (kinds : list layer_kind) : Prop :=
  exists layers, getitem d "layers" = ret (JList layers) /\ Forall2 layer_is layers kinds.

(** The plainest document with the given layers. *)
Definition layer_of (k : layer_kind) : json :=
  match k with
  | HotSpots g =>
      JDict [("type", JStr "hot_spots"); ("world", JDict [("tiles", tiles_of g)])]
  | Other => JDict [("type", JStr "background")]
  end.

Definition document_of (kinds : list layer_kind) : json :=
  JDict [("layers", JList (map layer_of kinds))].

(** ** The report, described cell by cell *)

(** The two values that mean no marker. *)
Definition sentinel (v : Z) : bool := Z.eqb v (-1) || Z.eqb v 0.

Definition enumerate {A} (start : nat) (xs : list A) : list (nat * A) :=
  combine (seq start (List.length xs)) xs.

(** Every cell with its row and column index, rows in ascending order
    and, within a row, columns in ascending order. *)
Definition row_cells (row_idx : nat) (start : nat) (row : list Z) : list (nat * nat * Z) :=
  map (fun cv => (row_idx, fst cv, snd cv)) (enumerate start row).

Definition cells_from (start : nat) (g : grid) : list (nat * nat * Z) :=
  flat_map (fun rr => row_cells (fst rr) 0 (snd rr)) (enumerate start g).

Definition cells (g : grid) : list (nat * nat * Z) := cells_from 0 g.

Definition marked (cs : list (nat * nat * Z)) : list (nat * nat * Z) :=
  filter (fun c => negb (sentinel (snd c))) cs.

(** The label of an integer code. *)
Definition label (v : Z) : string :=
  names_get (JInt v) ("TYPE_" ++ str_int v).

Definition line_of (c : nat * nat * Z) : string :=
  let '(row_idx, col_idx, v) := c in
  cell_line row_idx col_idx (str_int v) (label v).

(** The value at a position of the grid, if there is one. *)
Definition cell_at (g : grid) (row_idx col_idx : nat) : option Z :=
  match nth_error g row_idx with
  | Some row => nth_error row col_idx
  | None => None
  end.

(** What one hot-spots layer with grid [g] gets printed. *)
Definition layer_lines (path : string) (g : grid) : list string :=
  (header_line path :: map line_of (marked (cells g))
     ++ [total_line (List.length (marked (cells g)))])%list.

Definition kind_lines (path : string) (k : layer_kind) : list string :=
  match k with
  | HotSpots g => layer_lines path g
  | Other => []
  end.

(** The grids of the hot-spots layers of a document, in order. *)
Fixpoint hot_grids (kinds : list layer_kind) : list grid :=
  match kinds with
  | [] => []
  | HotSpots g :: rest => g :: hot_grids rest
  | Other :: rest => hot_grids rest
  end.

(** The number of marked cells, counted row by row. *)
Definition count_marked (g : grid) : nat :=
  list_sum (map (fun row => List.length (filter (fun v => negb (sentinel v)) row)) g).

(** Row-major order on positions: by row, then by column. *)
Definition row_major_lt (a b : nat * nat * Z) : Prop :=
  fst (fst a) < fst (fst b) \/
  (fst (fst a) = fst (fst b) /\ snd (fst a) < snd (fst b)).

(** ** Characters of a printed line *)

Fixpoint string_forall (p : ascii -> bool) (s : string) : bool :=
  match s with
  | EmptyString => true
  | String c rest => p c && string_forall p rest
  end.

(** The characters the [str] of an integer is made of. *)
Definition numeric_char (c : ascii) : bool :=
  match c with
  | "0" | "1" | "2" | "3" | "4" | "5" | "6" | "7" | "8" | "9" | "-" => true
  | _ => false
  end%char.

(** ** Sample documents *)

(** Two hot-spots layers, one marker each. *)
Definition two_hot_spots_layers : json :=
  JDict [("layers", JList
    [ JDict [("type", JStr "hot_spots");
             ("world", JDict [("tiles", JList [JList [JInt 1]])])];
      JDict [("type", JStr "hot_spots");
             ("world", JDict [("tiles", JList [JList [JInt 2]])])] ])].

(** No hot-spots layer; the layers carry no [world] and unrelated fields. *)
Definition no_hot_spots_layers : json :=
  JDict [("layers", JList
    [ JDict [("type", JStr "background"); ("world", JNull)];
      JDict [("name", JList [JInt 7]); ("type", JStr "objects")] ])].

(** A grid whose only marker is a 1 at row 2, column 3. *)
Definition single_marker_grid : grid :=
  [ [0; 0; 0; 0]; [-1; -1; -1; -1]; [0; -1; 0; 1] ]%Z.

(** A ragged grid with mapped, negative and unmapped codes. *)
Definition mixed_grid : grid :=
  [ [0; -2; 42]; [-1]; [-3; 1; 1] ]%Z.

(** A grid with no marker at all. *)
Definition empty_grid : grid :=
  [ [0; -1]; []; [-1; 0; 0] ]%Z.

(** A parser that knows one file content. *)
Definition sample_load (d : json) (content : string) : option json :=
  if String.eqb content "{}" then Some d else None.

(** A file system with one readable file. *)
Definition sample_fs (path : string) (p : string) : option string :=
  if String.eqb p path then Some "{}" else None.

(** ** Runs on arbitrary JSON *)

(** [line] is some cell's line. *)
Definition is_cell_line (line : string) : Prop :=
  exists r c sval name, line = cell_line r c sval name.

(** [m], started with [count] cells counted, printed cell lines only and,
    if it ended normally, counted each of them. *)
Definition counts_lines (count : nat) (m : Py nat) : Prop :=
  Forall is_cell_line (stdout m) /\
  forall n, result m = Ret n -> n = count + List.length (stdout m).

(** A hot-spots layer whose third row has a list where a code should be. *)
Definition broken_cell_layer : json :=
  JDict [("type", JStr "hot_spots");
         ("world", JDict [("tiles", JList
            [ JList [JInt 0; JInt 5];
              JList [];
              JList [JInt 9; JInt (-1); JList [JInt 1]; JInt 3];
              JList [JInt 2] ])])].

(** A hot-spots layer with no [world]. *)
Definition worldless_layer : json :=
  JDict [("type", JStr "hot_spots"); ("name", JStr "markers")].

(** A layer with no [type] between two hot-spots layers. *)
Definition untyped_layer_document : json :=
  JDict [("layers", JList
    [ JDict [("type", JStr "hot_spots");
             ("world", JDict [("tiles", JList [JList [JInt 1]])])];
      JDict [("name", JStr "decor")];
      JDict [("type", JStr "hot_spots");
             ("world", JDict [("tiles", JList [JList [JInt 2]])])] ])].

(** ** Tactics for concrete documents *)

Ltac is_hot_spots_layer := eexists; repeat split; reflexivity.

Ltac is_level_document :=
  eexists; split; [reflexivity|];
  repeat constructor; simpl; eexists; repeat split; reflexivity.

(** ** The output monad *)

Lemma bind_ret {A B} (a : A) (k : A -> Py B) : bind (ret a) k = k a.
Proof. unfold bind, ret. destruct (k a); reflexivity. Qed.

Lemma bind_raise {A B} (e : exn) (k : A -> Py B) : bind (raise e) k = raise e.
Proof. reflexivity. Qed.

Lemma bind_out_ret {A B} (out : list string) (a : A) (k : A -> Py B) :
  bind (out, Ret a) k = ((out ++ stdout (k a))%list, result (k a)).
Proof. unfold bind, stdout, result. destruct (k a); reflexivity. Qed.

Lemma bind_print {B} (line : string) (k : unit -> Py B) :
  bind (print line) k = (line :: stdout (k tt), result (k tt)).
Proof. unfold print. rewrite bind_out_ret. reflexivity. Qed.

Lemma bind_assoc {A B C} (m : Py A) (k : A -> Py B) (h : B -> Py C) :
  bind (bind m k) h = bind m (fun a => bind (k a) h).
Proof.
  destruct m as [out1 [a|e]]; simpl; [|reflexivity].
  destruct (k a) as [out2 [b|e]]; simpl; [|reflexivity].
  destruct (h b) as [out3 r]. rewrite app_assoc. reflexivity.
Qed.

(** ** The scan of an integer grid *)

Lemma sentinel_spec (v : Z) : sentinel v = false <-> (v <> -1 /\ v <> 0)%Z.
Proof. unfold sentinel. rewrite orb_false_iff, !Z.eqb_neq. tauto. Qed.

Lemma sentinel_true (v : Z) : sentinel v = true <-> (v = -1 \/ v = 0)%Z.
Proof. unfold sentinel. rewrite orb_true_iff, !Z.eqb_eq. tauto. Qed.

Lemma scan_cell_int (row_idx col_idx : nat) (v : Z) (count : nat) :
  scan_cell row_idx col_idx (JInt v) count =
    if sentinel v then ([], Ret count)
    else ([line_of (row_idx, col_idx, v)], Ret (count + 1)).
Proof.
  unfold scan_cell, sentinel, ne_int. simpl format. cbv iota.
  rewrite <- negb_orb. destruct (Z.eqb v (-1) || Z.eqb v 0); reflexivity.
Qed.

Lemma row_cells_cons (row_idx start : nat) (v : Z) (row : list Z) :
  row_cells row_idx start (v :: row) = (row_idx, start, v) :: row_cells row_idx (S start) row.
Proof. reflexivity. Qed.

Lemma cells_from_cons (start : nat) (row : list Z) (g : grid) :
  cells_from start (row :: g) = (row_cells start 0 row ++ cells_from (S start) g)%list.
Proof. reflexivity. Qed.

Lemma marked_app (xs ys : list (nat * nat * Z)) :
  marked (xs ++ ys) = (marked xs ++ marked ys)%list.
Proof. apply filter_app. Qed.

Lemma scan_cells_int (row_idx : nat) (row : list Z) :
  forall (start count : nat),
    for_enumerate start (map JInt row) (scan_cell row_idx) count =
      (map line_of (marked (row_cells row_idx start row)),
       Ret (count + List.length (marked (row_cells row_idx start row)))).
Proof.
  induction row as [|v row IH]; intros start count.
  - simpl. unfold ret. rewrite Nat.add_0_r. reflexivity.
  - cbn [map for_enumerate]. rewrite scan_cell_int, row_cells_cons.
    unfold marked at 1 2. cbn [filter snd]. fold (marked (row_cells row_idx (S start) row)).
    destruct (sentinel v); cbn [negb].
    + change ([], Ret count) with (@ret nat count). rewrite bind_ret. apply IH.
    + rewrite bind_out_ret, IH. cbn [stdout result fst snd map List.length app].
      do 2 f_equal. lia.
Qed.

Lemma scan_row_int (row_idx : nat) (row : list Z) (count : nat) :
  scan_row row_idx (JList (map JInt row)) count =
    (map line_of (marked (row_cells row_idx 0 row)),
     Ret (count + List.length (marked (row_cells row_idx 0 row)))).
Proof. unfold scan_row. cbn [iter]. rewrite bind_ret. apply scan_cells_int. Qed.

Lemma scan_rows_int (g : grid) :
  forall (start count : nat),
    for_enumerate start (map (fun row => JList (map JInt row)) g) scan_row count =
      (map line_of (marked (cells_from start g)),
       Ret (count + List.length (marked (cells_from start g)))).
Proof.
  induction g as [|row g IH]; intros start count.
  - simpl. unfold ret. rewrite Nat.add_0_r. reflexivity.
  - cbn [map for_enumerate]. rewrite scan_row_int, bind_out_ret, IH.
    rewrite cells_from_cons, marked_app, map_app, length_app.
    cbn [stdout result fst snd]. do 2 f_equal. lia.
Qed.

(** A hot-spots layer prints its header, one line per marked cell in
    row-major order, and the total. *)
Lemma report_hot_spots_layer (path : string) (layer : json) (g : grid) :
  hot_spots_layer layer g ->
  report_layer path layer = (layer_lines path g, Ret tt).
Proof.
  intros (world & Hty & Hworld & Htiles). unfold report_layer.
  rewrite Hty, bind_ret. cbn [eq_str String.eqb Ascii.eqb Bool.eqb].
  rewrite bind_print, Hworld, bind_ret, Htiles, bind_ret.
  unfold tiles_of. cbn [iter]. rewrite bind_ret, scan_rows_int, bind_out_ret.
  reflexivity.
Qed.

(** Any other layer is skipped without a trace. *)
Lemma report_other_layer (path : string) (layer : json) :
  other_layer layer -> report_layer path layer = ret tt.
Proof.
  intros (ty & Hty & Hne). unfold report_layer. rewrite Hty, bind_ret, Hne. reflexivity.
Qed.

Lemma report_layer_kind (path : string) (layer : json) (k : layer_kind) :
  layer_is layer k -> report_layer path layer = (kind_lines path k, Ret tt).
Proof.
  destruct k; simpl; intros H.
  - apply report_hot_spots_layer, H.
  - apply report_other_layer, H.
Qed.

Lemma for_each_layers (path : string) (layers : list json) (kinds : list layer_kind) :
  Forall2 layer_is layers kinds ->
  for_each layers (report_layer path) = (flat_map (kind_lines path) kinds, Ret tt).
Proof.
  induction 1 as [|layer k layers kinds Hk _ IH]; [reflexivity|].
  cbn [for_each flat_map]. rewrite (report_layer_kind _ _ _ Hk), bind_out_ret, IH.
  reflexivity.
Qed.

(** The whole report of a level document: the reports of its hot-spots
    layers, one after the other in document order. *)
Lemma report_level_document (path : string) (d : json) (kinds : list layer_kind) :
  level_document d kinds ->
  report path d = (flat_map (kind_lines path) kinds, Ret tt).
Proof.
  intros (layers & Hd & Hl). unfold report. rewrite Hd, bind_ret. cbn [iter].
  rewrite bind_ret. apply for_each_layers, Hl.
Qed.

Lemma layer_of_is (k : layer_kind) : layer_is (layer_of k) k.
Proof.
  destruct k as [g|]; simpl.
  - exists (JDict [("tiles", tiles_of g)]). repeat split.
  - exists (JStr "background"). split; reflexivity.
Qed.

Lemma document_of_is (kinds : list layer_kind) : level_document (document_of kinds) kinds.
Proof.
  exists (map layer_of kinds). split; [reflexivity|].
  induction kinds; constructor; auto using layer_of_is.
Qed.

(** ** Reading a printed line back *)

Lemma string_of_uint_numeric (d : Decimal.uint) :
  string_forall numeric_char (NilEmpty.string_of_uint d) = true.
Proof. induction d; simpl; auto. Qed.

Lemma str_int_numeric (n : Z) : string_forall numeric_char (str_int n) = true.
Proof.
  unfold str_int, NilZero.string_of_int, NilZero.string_of_uint.
  destruct (Z.to_int n) as [d|d]; destruct d; simpl; auto using string_of_uint_numeric.
Qed.

Lemma to_int_not_nil (n : Z) : Z.to_int n <> Decimal.Pos Decimal.Nil /\ Z.to_int n <> Decimal.Neg Decimal.Nil.
Proof.
  destruct n as [|p|p]; simpl; split; try discriminate; intros [= H];
    revert H; apply DecimalPos.Unsigned.to_uint_nonnil.
Qed.

Lemma str_int_inj (a b : Z) : str_int a = str_int b -> a = b.
Proof.
  unfold str_int. intros H. apply DecimalZ.to_int_inj.
  destruct (to_int_not_nil a) as [Ha1 Ha2], (to_int_not_nil b) as [Hb1 Hb2].
  pose proof (NilZero.isi _ Ha1 Ha2) as Ia. pose proof (NilZero.isi _ Hb1 Hb2) as Ib.
  rewrite H in Ia. congruence.
Qed.

(** A run of characters of one class ends where the first character
    outside the class stands. *)
Lemma split_at_separator (p : ascii -> bool) (c : ascii) (s1 s2 t1 t2 : string) :
  string_forall p s1 = true -> string_forall p s2 = true -> p c = false ->
  s1 ++ String c t1 = s2 ++ String c t2 -> s1 = s2 /\ t1 = t2.
Proof.
  intros H1 H2 Hc. revert s2 H2.
  induction s1 as [|a s1 IH]; intros [|b s2] H2; simpl in *; intros E.
  - injection E as E. auto.
  - injection E as Eb _. subst b. rewrite Hc in H2. discriminate.
  - injection E as Ea _. subst a. rewrite Hc in H1. discriminate.
  - injection E as Eab E. apply andb_prop in H1 as [_ H1]. apply andb_prop in H2 as [_ H2].
    destruct (IH H1 s2 H2 E) as [-> ->]. subst. auto.
Qed.

Lemma list_of_append (s t : string) :
  list_ascii_of_string (s ++ t) = (list_ascii_of_string s ++ list_ascii_of_string t)%list.
Proof. induction s; simpl; congruence. Qed.

Lemma append_inv_tail (s1 s2 t : string) : s1 ++ t = s2 ++ t -> s1 = s2.
Proof.
  intros H. apply (f_equal list_ascii_of_string) in H. rewrite !list_of_append in H.
  apply app_inv_tail in H. apply (f_equal string_of_list_ascii) in H.
  rewrite !string_of_list_ascii_of_string in H. exact H.
Qed.

Lemma cell_line_chars (row_idx col_idx : nat) (sval name : string) :
  cell_line row_idx col_idx sval name =
    String " " (String " " (String "["
      (str_int (Z.of_nat row_idx) ++ String "]" (String "["
        (str_int (Z.of_nat col_idx) ++ String "]" (String " " (String "=" (String " "
          (sval ++ String " " (String "("
            (name ++ ") -> pixel (" ++ str_int (Z.of_nat (col_idx * 32)) ++ ", "
               ++ str_int (Z.of_nat (row_idx * 32)) ++ ")"))))))))))).
Proof. reflexivity. Qed.

(** A cell line determines the indices, the value and the label it was
    printed from, as long as the value is an integer. *)
Lemma cell_line_inj (r c r' c' : nat) (sval sval' name name' : string) :
  string_forall numeric_char sval = true ->
  string_forall numeric_char sval' = true ->
  cell_line r c sval name = cell_line r' c' sval' name' ->
  r = r' /\ c = c' /\ sval = sval' /\ name = name'.
Proof.
  intros Hs Hs'. rewrite !cell_line_chars. intros [= E].
  apply split_at_separator with (p := numeric_char) in E;
    auto using str_int_numeric.
  destruct E as [Er [= E]].
  apply split_at_separator with (p := numeric_char) in E;
    auto using str_int_numeric.
  destruct E as [Ec [= E]].
  apply split_at_separator with (p := numeric_char) in E; auto.
  destruct E as [Ev [= E]].
  apply str_int_inj, Nat2Z.inj in Er. apply str_int_inj, Nat2Z.inj in Ec.
  subst r' c' sval'. apply append_inv_tail in E. auto.
Qed.

Lemma line_of_inj (c1 c2 : nat * nat * Z) : line_of c1 = line_of c2 -> c1 = c2.
Proof.
  destruct c1 as [[r c] v], c2 as [[r' c'] v']. unfold line_of. intros H.
  apply cell_line_inj in H; auto using str_int_numeric.
  destruct H as (-> & -> & Hv & _). apply str_int_inj in Hv. congruence.
Qed.

(** ** The cells of a grid *)

Lemma enumerate_cons {A} (start : nat) (x : A) (xs : list A) :
  enumerate start (x :: xs) = (start, x) :: enumerate (S start) xs.
Proof. reflexivity. Qed.

Lemma in_enumerate {A} (xs : list A) :
  forall (start i : nat) (x : A),
    In (i, x) (enumerate start xs) <-> start <= i /\ nth_error xs (i - start) = Some x.
Proof.
  induction xs as [|y xs IH]; intros start i x.
  - simpl. split; [tauto|]. intros [_ H]. destruct (i - start); discriminate.
  - rewrite enumerate_cons. simpl In. rewrite IH. split.
    + intros [[= <- <-]|[Hle Hnth]].
      * rewrite Nat.sub_diag. auto.
      * split; [lia|]. replace (i - start) with (S (i - S start)) by lia. exact Hnth.
    + intros [Hle Hnth]. destruct (Nat.eq_dec i start) as [->|Hne].
      * rewrite Nat.sub_diag in Hnth. injection Hnth as ->. auto.
      * right. split; [lia|].
        replace (i - start) with (S (i - S start)) in Hnth by lia. exact Hnth.
Qed.

Lemma in_row_cells (r0 start : nat) (row : list Z) (r c : nat) (v : Z) :
  In (r, c, v) (row_cells r0 start row) <->
    r = r0 /\ start <= c /\ nth_error row (c - start) = Some v.
Proof.
  unfold row_cells. rewrite in_map_iff. split.
  - intros ([c' v'] & [= <- <- <-] & Hin). apply in_enumerate in Hin. tauto.
  - intros (-> & H). exists (c, v). split; [reflexivity|]. apply in_enumerate, H.
Qed.

Lemma in_cells_from (g : grid) :
  forall (start r c : nat) (v : Z),
    In (r, c, v) (cells_from start g) <->
      start <= r /\ exists row, nth_error g (r - start) = Some row /\ nth_error row c = Some v.
Proof.
  intros start r c v. unfold cells_from. rewrite in_flat_map. split.
  - intros ([r' row] & Hrow & Hin). apply in_enumerate in Hrow as [Hle Hrow].
    apply in_row_cells in Hin as (-> & _ & Hc). cbn [fst snd] in *.
    rewrite Nat.sub_0_r in Hc. eauto.
  - intros (Hle & row & Hrow & Hc). exists (r, row). split.
    + apply in_enumerate. auto.
    + apply in_row_cells. rewrite Nat.sub_0_r. auto with arith.
Qed.

(** [cells] lists the cells of the grid and nothing else. *)
Lemma in_cells (g : grid) (r c : nat) (v : Z) :
  In (r, c, v) (cells g) <-> cell_at g r c = Some v.
Proof.
  unfold cells, cell_at. rewrite in_cells_from, Nat.sub_0_r. split.
  - intros (_ & row & -> & H). exact H.
  - destruct (nth_error g r) as [row|]; [|discriminate]. intros H.
    split; [lia|]. eauto.
Qed.

Lemma in_marked (cs : list (nat * nat * Z)) (r c : nat) (v : Z) :
  In (r, c, v) (marked cs) <-> In (r, c, v) cs /\ (v <> -1 /\ v <> 0)%Z.
Proof.
  unfold marked. rewrite filter_In. cbn [snd].
  rewrite negb_true_iff, sentinel_spec. tauto.
Qed.

Lemma sorted_app {A} (R : A -> A -> Prop) (xs ys : list A) :
  StronglySorted R xs -> StronglySorted R ys ->
  (forall x y, In x xs -> In y ys -> R x y) ->
  StronglySorted R (xs ++ ys).
Proof.
  induction 1 as [|x xs Hs IH Hx]; intros Hys Hxy; simpl; [assumption|].
  constructor.
  - apply IH; [assumption|]. intros; apply Hxy; simpl; auto.
  - apply Forall_app. split; [assumption|].
    apply Forall_forall. intros y Hy. apply Hxy; simpl; auto.
Qed.

Lemma sorted_filter {A} (R : A -> A -> Prop) (p : A -> bool) (xs : list A) :
  StronglySorted R xs -> StronglySorted R (filter p xs).
Proof.
  induction 1 as [|x xs Hs IH Hx]; simpl; [constructor|].
  destruct (p x); [|assumption]. constructor; [assumption|].
  rewrite Forall_forall in *. intros y Hy. apply filter_In in Hy as [Hy _]. auto.
Qed.

Lemma row_cells_sorted (r0 : nat) (row : list Z) :
  forall start, StronglySorted row_major_lt (row_cells r0 start row).
Proof.
  induction row as [|v row IH]; intros start; [constructor|].
  rewrite row_cells_cons. constructor; [apply IH|].
  apply Forall_forall. intros [[r c] v'] Hin.
  apply in_row_cells in Hin as (-> & Hle & _). right. cbn. lia.
Qed.

Lemma cells_from_sorted (g : grid) :
  forall start, StronglySorted row_major_lt (cells_from start g).
Proof.
  induction g as [|row g IH]; intros start; [constructor|].
  rewrite cells_from_cons. apply sorted_app; [apply row_cells_sorted|apply IH|].
  intros [[r c] v] [[r' c'] v'] Hx Hy.
  apply in_row_cells in Hx as (-> & _). apply in_cells_from in Hy as (Hle & _).
  left. cbn. lia.
Qed.

Lemma row_major_lt_irrefl (a : nat * nat * Z) : ~ row_major_lt a a.
Proof. unfold row_major_lt. lia. Qed.

Lemma sorted_nodup {A} (R : A -> A -> Prop) (xs : list A) :
  (forall a, ~ R a a) -> StronglySorted R xs -> NoDup xs.
Proof.
  intros Hirr. induction 1 as [|x xs Hs IH Hx]; constructor; [|assumption].
  intros Hin. rewrite Forall_forall in Hx. apply (Hirr x), Hx, Hin.
Qed.

Lemma marked_cells_sorted (g : grid) : StronglySorted row_major_lt (marked (cells g)).
Proof. apply sorted_filter, cells_from_sorted. Qed.

Lemma marked_row_cells_length (r0 : nat) (row : list Z) :
  forall start,
    List.length (marked (row_cells r0 start row)) =
      List.length (filter (fun v => negb (sentinel v)) row).
Proof.
  induction row as [|v row IH]; intros start; [reflexivity|].
  rewrite row_cells_cons. unfold marked. cbn [filter snd].
  fold (marked (row_cells r0 (S start) row)).
  destruct (sentinel v); cbn [negb List.length]; rewrite IH; reflexivity.
Qed.

Lemma marked_cells_from_length (g : grid) :
  forall start, List.length (marked (cells_from start g)) = count_marked g.
Proof.
  induction g as [|row g IH]; intros start; [reflexivity|].
  rewrite cells_from_cons, marked_app, length_app, marked_row_cells_length, IH.
  reflexivity.
Qed.

(** ** Lines of a report *)

Lemma flat_map_kind_lines (path : string) (kinds : list layer_kind) :
  flat_map (kind_lines path) kinds = flat_map (layer_lines path) (hot_grids kinds).
Proof.
  induction kinds as [|[g|] kinds IH]; simpl; [reflexivity| |assumption].
  f_equal. rewrite <- IH. reflexivity.
Qed.

Lemma for_each_app (xs ys : list json) (body : json -> Py unit) :
  for_each (xs ++ ys) body = (for_each xs body ;;; for_each ys body).
Proof.
  induction xs as [|x xs IH]; cbn [for_each app].
  - rewrite bind_ret. reflexivity.
  - rewrite IH, bind_assoc. reflexivity.
Qed.

Lemma cell_line_not_header (r c : nat) (sval name path : string) :
  cell_line r c sval name <> header_line path.
Proof. rewrite cell_line_chars. discriminate. Qed.

Lemma cell_line_not_total (r c : nat) (sval name : string) (count : nat) :
  cell_line r c sval name <> total_line count.
Proof. rewrite cell_line_chars. discriminate. Qed.

(** The table gives [NONE] to code 0 and to no other code, and the
    fallback label never reads [NONE]. *)
Lemma label_none (v : Z) : label v = "NONE" -> v = 0%Z.
Proof.
  unfold label, names_get, hot_spot_names, names_lookup.
  repeat match goal with
         | |- context [Z.eqb ?k v] => destruct (Z.eqb_spec k v) as [<-|_]
         end; try discriminate; reflexivity.
Qed.

Lemma label_unmapped (v : Z) :
  names_lookup v hot_spot_names = None -> label v = "TYPE_" ++ str_int v.
Proof. unfold label, names_get. intros ->. reflexivity. Qed.

(** The cell lines of a layer's report are the lines of its marked
    cells, each carrying the label of its value. *)
Lemma in_layer_lines (path : string) (g : grid) (r c : nat) (v : Z) (name : string) :
  In (cell_line r c (str_int v) name) (layer_lines path g) <->
    In (r, c, v) (marked (cells g)) /\ name = label v.
Proof.
  unfold layer_lines. simpl In. rewrite in_app_iff, in_map_iff. simpl In. split.
  - intros [H|[([[r' c'] v'] & Hl & Hin)|[H|[]]]].
    + symmetry in H. apply cell_line_not_header in H. destruct H.
    + unfold line_of in Hl. apply cell_line_inj in Hl; auto using str_int_numeric.
      destruct Hl as (-> & -> & Hv & <-). apply str_int_inj in Hv. subst v'. auto.
    + symmetry in H. apply cell_line_not_total in H. destruct H.
  - intros (Hin & ->). right. left. exists (r, c, v). auto.
Qed.

Lemma in_report_lines (path : string) (grids : list grid) (r c : nat) (v : Z) (name : string) :
  In (cell_line r c (str_int v) name) (flat_map (layer_lines path) grids) <->
    exists g, In g grids /\ In (r, c, v) (marked (cells g)) /\ name = label v.
Proof.
  rewrite in_flat_map. split; intros (g & Hg & H); exists g; split; auto;
    apply (in_layer_lines path g r c v name); exact H.
Qed.

(** ** Layers *)

(** C1, as the code has it: the loop over the layers never stops early,
    so the output is the report of every layer whose type is
    ["hot_spots"], in document order, the first one first; each report is
    made from its own layer only, and the layers of any other type add no
    line.  The run ends normally. *)
Theorem report_covers_every_hot_spots_layer (path : string) (d : json) (kinds : list layer_kind) :
  level_document d kinds ->
  stdout (report path d) = flat_map (layer_lines path) (hot_grids kinds) /\
  result (report path d) = Ret tt.
Proof.
  intros H. rewrite (report_level_document _ _ _ H), <- flat_map_kind_lines. auto.
Qed.

Lemma report_covers_every_hot_spots_layer_witness :
  level_document two_hot_spots_layers [HotSpots [[1%Z]]; HotSpots [[2%Z]]] /\
  (stdout (report "level.json" two_hot_spots_layers) =
     flat_map (layer_lines "level.json") (hot_grids [HotSpots [[1%Z]]; HotSpots [[2%Z]]]) /\
   result (report "level.json" two_hot_spots_layers) = Ret tt).
Proof.
  assert (H : level_document two_hot_spots_layers [HotSpots [[1%Z]]; HotSpots [[2%Z]]])
    by is_level_document.
  split; [exact H|].
  exact (report_covers_every_hot_spots_layer "level.json" two_hot_spots_layers _ H).
Defined.

(** C1 as stated fails: with two hot-spots layers the second one is
    reported as well, so the output is not the first layer's report. *)
Lemma second_hot_spots_layer_is_reported :
  level_document two_hot_spots_layers [HotSpots [[1%Z]]; HotSpots [[2%Z]]] /\
  stdout (report "level.json" two_hot_spots_layers) =
    [ "Hot spots in level.json:";
      "  [0][0] = 1 (GO_RIGHT) -> pixel (0, 0)";
      "Total: 1 hot spots";
      "Hot spots in level.json:";
      "  [0][0] = 2 (GO_LEFT) -> pixel (0, 0)";
      "Total: 1 hot spots" ] /\
  stdout (report "level.json" two_hot_spots_layers) <> layer_lines "level.json" [[1%Z]].
Proof.
  split; [is_level_document|]. split; [reflexivity|]. vm_compute. discriminate.
Qed.

(** C4: a document none of whose layers has the type ["hot_spots"]
    makes the script print nothing and end normally. *)
Theorem no_hot_spots_layer_prints_nothing
    (json_load : string -> option json) (argv : list string)
    (fs : string -> option string) (content : string) (d : json) (layers : list json) :
  fs (level_file argv) = Some content ->
  json_load content = Some d ->
  getitem d "layers" = ret (JList layers) ->
  Forall other_layer layers ->
  main json_load argv fs = ([], Ret tt).
Proof.
  intros Hfs Hload Hd Hl. unfold main, load. rewrite Hfs, Hload, bind_ret.
  unfold report. rewrite Hd, bind_ret. cbn [iter]. rewrite bind_ret. clear Hd.
  induction Hl as [|layer layers Hk _ IH]; [reflexivity|].
  cbn [for_each]. rewrite (report_other_layer _ _ Hk), bind_ret. exact IH.
Qed.

Lemma no_hot_spots_layer_prints_nothing_witness :
  main (sample_load no_hot_spots_layers) ["check-hotspots.py"; "level.json"]
       (sample_fs "level.json") = ([], Ret tt).
Proof.
  apply (no_hot_spots_layer_prints_nothing _ _ _ "{}" no_hot_spots_layers
           [ JDict [("type", JStr "background"); ("world", JNull)];
             JDict [("name", JList [JInt 7]); ("type", JStr "objects")] ]).
  - reflexivity.
  - reflexivity.
  - reflexivity.
  - repeat constructor; eexists; split; reflexivity.
Defined.

(** C10: of a layer whose type is not ["hot_spots"] the script reads the
    [type] field and nothing else.  Such a layer, whatever else it holds
    or lacks, prints nothing and raises nothing, and the run goes as if
    the layer were not in the document. *)
Theorem other_layer_only_type_is_read
    (path : string) (layer : json) (before after : list json) (d d0 : json) :
  other_layer layer ->
  getitem d "layers" = ret (JList (before ++ layer :: after)) ->
  getitem d0 "layers" = ret (JList (before ++ after)) ->
  report_layer path layer = ([], Ret tt) /\ report path d = report path d0.
Proof.
  intros Hk Hd Hd0. pose proof (report_other_layer path layer Hk) as Hskip.
  split; [exact Hskip|]. unfold report. rewrite Hd, Hd0, !bind_ret. cbn [iter].
  rewrite !bind_ret, !for_each_app. cbn [for_each]. rewrite Hskip, bind_ret.
  reflexivity.
Qed.

Lemma other_layer_only_type_is_read_witness :
  let layer := JDict [("name", JList [JInt 7]); ("type", JStr "objects")] in
  let first := JDict [("type", JStr "hot_spots");
                      ("world", JDict [("tiles", JList [JList [JInt 1]])])] in
  report_layer "level.json" layer = ([], Ret tt) /\
  report "level.json" (JDict [("layers", JList [first; layer; first])]) =
    report "level.json" (JDict [("layers", JList [first; first])]).
Proof.
  intros layer first.
  apply (other_layer_only_type_is_read "level.json" layer [first] [first]).
  - exists (JStr "objects"). split; reflexivity.
  - reflexivity.
  - reflexivity.
Defined.

(** ** Cells *)

Lemma marked_cell_at (g : grid) (r c : nat) (v : Z) :
  In (r, c, v) (marked (cells g)) <-> cell_at g r c = Some v /\ (v <> -1 /\ v <> 0)%Z.
Proof. rewrite in_marked, in_cells. tauto. Qed.

Lemma stdout_hot_spots_layer (path : string) (layer : json) (g : grid) :
  hot_spots_layer layer g -> stdout (report_layer path layer) = layer_lines path g.
Proof. intros H. rewrite (report_hot_spots_layer _ _ _ H). reflexivity. Qed.

Lemma scan_cell_marker_cases
    (path : string) (layer : json) (g : grid) (r c : nat) (v : Z) (count : nat) :
  hot_spots_layer layer g ->
  cell_at g r c = Some v ->
  ((exists line, scan_cell r c (JInt v) count = ([line], Ret (count + 1)))
     <-> (v <> -1 /\ v <> 0)%Z) /\
  (scan_cell r c (JInt v) count = ([], Ret count) <-> (v = -1 \/ v = 0)%Z) /\
  (In (cell_line r c (str_int v) (label v)) (stdout (report_layer path layer))
     <-> (v <> -1 /\ v <> 0)%Z) /\
  scan_cell r c (JInt (-2)) count = ([cell_line r c "-2" "DEATH"], Ret (count + 1)) /\
  scan_cell r c (JInt (-3)) count = ([cell_line r c "-3" "COLLECT"], Ret (count + 1)).
Proof.
  intros Hl Hc. rewrite (stdout_hot_spots_layer _ _ _ Hl), in_layer_lines, marked_cell_at.
  rewrite scan_cell_int. split; [|split; [|split; [|split; reflexivity]]].
  - destruct (sentinel v) eqn:Hs.
    + apply sentinel_true in Hs. split; [intros [line [=]]|lia].
    + apply sentinel_spec in Hs. split; [auto|eauto].
  - destruct (sentinel v) eqn:Hs.
    + apply sentinel_true in Hs. tauto.
    + apply sentinel_spec in Hs. split; [intros [=]|lia].
  - tauto.
Qed.

(** C2: a cell of a hot-spots grid prints a line and adds one to the
    count exactly when its value is neither -1 nor 0, and is passed over
    exactly when it is one of the two; the layer's report has the cell's
    line, written out here character by character, exactly in the first
    case.  The values -2 and -3 are of the first kind: their cells print
    [[r][c] = -2 (DEATH) -> pixel (x, y)] and
    [[r][c] = -3 (COLLECT) -> pixel (x, y)] and are counted. *)
Theorem marker_reported_iff_not_sentinel
    (path : string) (layer : json) (g : grid) (r c : nat) (v : Z) (count : nat) :
  hot_spots_layer layer g ->
  cell_at g r c = Some v ->
  ((exists line, scan_cell r c (JInt v) count = ([line], Ret (count + 1)))
     <-> (v <> -1 /\ v <> 0)%Z) /\
  (scan_cell r c (JInt v) count = ([], Ret count) <-> (v = -1 \/ v = 0)%Z) /\
  (In ("  [" ++ str_int (Z.of_nat r) ++ "][" ++ str_int (Z.of_nat c) ++ "] = "
         ++ str_int v ++ " (" ++ label v ++ ") -> pixel ("
         ++ str_int (Z.of_nat (c * 32)) ++ ", " ++ str_int (Z.of_nat (r * 32)) ++ ")")
      (stdout (report_layer path layer))
     <-> (v <> -1 /\ v <> 0)%Z) /\
  scan_cell r c (JInt (-2)) count =
    ([ "  [" ++ str_int (Z.of_nat r) ++ "][" ++ str_int (Z.of_nat c)
         ++ "] = -2 (DEATH) -> pixel ("
         ++ str_int (Z.of_nat (c * 32)) ++ ", " ++ str_int (Z.of_nat (r * 32)) ++ ")" ],
     Ret (count + 1)) /\
  scan_cell r c (JInt (-3)) count =
    ([ "  [" ++ str_int (Z.of_nat r) ++ "][" ++ str_int (Z.of_nat c)
         ++ "] = -3 (COLLECT) -> pixel ("
         ++ str_int (Z.of_nat (c * 32)) ++ ", " ++ str_int (Z.of_nat (r * 32)) ++ ")" ],
     Ret (count + 1)).
Proof.
  intros Hl Hc. exact (scan_cell_marker_cases path layer g r c v count Hl Hc).
Qed.

Lemma marker_reported_iff_not_sentinel_witness :
  let layer := layer_of (HotSpots mixed_grid) in
  (In "  [0][1] = -2 (DEATH) -> pixel (32, 0)" (stdout (report_layer "level.json" layer))
     <-> (-2 <> -1 /\ -2 <> 0)%Z) /\
  scan_cell 0 1 (JInt (-2)) 0 = (["  [0][1] = -2 (DEATH) -> pixel (32, 0)"], Ret 1) /\
  scan_cell 0 1 (JInt (-3)) 0 = (["  [0][1] = -3 (COLLECT) -> pixel (32, 0)"], Ret 1).
Proof.
  intros layer.
  assert (Hl : hot_spots_layer layer mixed_grid) by is_hot_spots_layer.
  assert (Hc : cell_at mixed_grid 0 1 = Some (-2)%Z) by reflexivity.
  pose proof (marker_reported_iff_not_sentinel "level.json" layer mixed_grid 0 1 (-2) 0 Hl Hc)
    as (_ & _ & Hin & Hdeath & Hcollect).
  split; [exact Hin|]. split; [exact Hdeath|exact Hcollect].
Defined.

Lemma singleton_of_nodup {A} (a : A) (xs : list A) :
  NoDup xs -> In a xs -> (forall x, In x xs -> x = a) -> xs = [a].
Proof.
  intros Hnd Hin Hall. destruct xs as [|x xs]; [destruct Hin|].
  assert (x = a) by (apply Hall; simpl; auto). subst x. f_equal.
  destruct xs as [|y xs]; [reflexivity|]. exfalso.
  assert (y = a) by (apply Hall; simpl; auto). subst y.
  inversion Hnd as [|? ? Hnotin _]. apply Hnotin. simpl; auto.
Qed.

Lemma marked_cells_nodup (g : grid) : NoDup (marked (cells g)).
Proof.
  apply (sorted_nodup row_major_lt);
    [exact row_major_lt_irrefl|apply marked_cells_sorted].
Qed.

(** C3: when the only cell of the grid that is neither -1 nor 0 is a 1
    at row 2, column 3, the layer's report is the header, the line
    [[2][3] = 1 (GO_RIGHT) -> pixel (96, 64)] (printed, as every cell
    line is, after two spaces of indentation) and a total of 1.  In any
    grid, the line of a marked cell at row [r], column [c] gives the
    pixel as [(c * 32, r * 32)]. *)
Theorem single_marker_report (path : string) (layer : json) (g : grid) :
  hot_spots_layer layer g ->
  (cell_at g 2 3 = Some 1%Z ->
   (forall r c v, cell_at g r c = Some v -> (r, c) <> (2, 3) -> (v = -1 \/ v = 0)%Z) ->
   stdout (report_layer path layer) =
     [ header_line path;
       "  [2][3] = 1 (GO_RIGHT) -> pixel (96, 64)";
       "Total: 1 hot spots" ]) /\
  (forall r c v,
     cell_at g r c = Some v -> (v <> -1)%Z -> (v <> 0)%Z ->
     In ("  [" ++ str_int (Z.of_nat r) ++ "][" ++ str_int (Z.of_nat c) ++ "] = "
           ++ str_int v ++ " (" ++ label v ++ ") -> pixel ("
           ++ str_int (Z.of_nat c * 32) ++ ", " ++ str_int (Z.of_nat r * 32) ++ ")")
        (stdout (report_layer path layer))).
Proof.
  intros Hl. rewrite (stdout_hot_spots_layer _ _ _ Hl). split.
  - intros H1 Hrest.
    assert (E : marked (cells g) = [(2, 3, 1%Z)]).
    { apply singleton_of_nodup; [apply marked_cells_nodup| |].
      - apply marked_cell_at. split; [exact H1|lia].
      - intros [[r c] v] Hin. apply marked_cell_at in Hin as [Hc Hv].
        destruct (Nat.eq_dec r 2) as [->|Hr]; [destruct (Nat.eq_dec c 3) as [->|Hcol]|].
        + congruence.
        + assert (Hp : (2, c) <> (2, 3)) by congruence.
          destruct (Hrest 2 c v Hc Hp); lia.
        + assert (Hp : (r, c) <> (2, 3)) by congruence.
          destruct (Hrest r c v Hc Hp); lia. }
    unfold layer_lines. rewrite E. reflexivity.
  - intros r c v Hc Hv1 Hv0.
    assert (Hin : In (cell_line r c (str_int v) (label v)) (layer_lines path g)).
    { apply in_layer_lines. split; [|reflexivity]. apply marked_cell_at. auto. }
    unfold cell_line in Hin. rewrite !Nat2Z.inj_mul in Hin. exact Hin.
Qed.

Lemma single_marker_report_witness :
  stdout (report_layer "level.json" (layer_of (HotSpots single_marker_grid))) =
    [ header_line "level.json";
      "  [2][3] = 1 (GO_RIGHT) -> pixel (96, 64)";
      "Total: 1 hot spots" ].
Proof.
  assert (Hl : hot_spots_layer (layer_of (HotSpots single_marker_grid)) single_marker_grid)
    by is_hot_spots_layer.
  apply (proj1 (single_marker_report "level.json" _ single_marker_grid Hl)).
  - reflexivity.
  - intros r c v H Hne. apply in_cells in H. cbv in H.
    repeat (destruct H as [H|H];
            [injection H as <- <- <-; auto; exfalso; apply Hne; reflexivity|]).
    destruct H.
Defined.

Lemma hot_grids_app (before after : list layer_kind) :
  hot_grids (before ++ after) = (hot_grids before ++ hot_grids after)%list.
Proof.
  induction before as [|[g|] before IH]; simpl; [reflexivity| |assumption].
  f_equal. exact IH.
Qed.

Lemma cell_at_in (g : grid) (r c : nat) (v : Z) :
  cell_at g r c = Some v -> exists row, In row g /\ In v row.
Proof.
  unfold cell_at. destruct (nth_error g r) as [row|] eqn:Hr; [|discriminate].
  intros Hc. exists row. eauto using nth_error_In.
Qed.

Lemma marked_all_sentinel (g : grid) :
  Forall (Forall (fun v => v = -1 \/ v = 0)%Z) g -> marked (cells g) = [].
Proof.
  intros Hg. destruct (marked (cells g)) as [|[[r c] v] rest] eqn:E; [reflexivity|].
  assert (Hin : In (r, c, v) (marked (cells g))) by (rewrite E; simpl; auto).
  apply marked_cell_at in Hin as [Hc Hv]. apply cell_at_in in Hc as (row & Hrow & Hin).
  rewrite Forall_forall in Hg. specialize (Hg row Hrow). rewrite Forall_forall in Hg.
  specialize (Hg v Hin). lia.
Qed.

(** C5: a document with one hot-spots layer whose grid holds nothing but
    -1 and 0 gets the header line and the line [Total: 0 hot spots], and
    no other line; the run ends normally. *)
Theorem all_sentinel_report
    (path : string) (d : json) (before after : list layer_kind) (g : grid) :
  level_document d (before ++ HotSpots g :: after) ->
  hot_grids before = [] ->
  hot_grids after = [] ->
  Forall (Forall (fun v => v = -1 \/ v = 0)%Z) g ->
  report path d = ([header_line path; "Total: 0 hot spots"], Ret tt).
Proof.
  intros Hd Hb Ha Hg. rewrite (report_level_document _ _ _ Hd), flat_map_kind_lines.
  rewrite hot_grids_app. cbn [hot_grids]. rewrite Hb, Ha. cbn [app flat_map].
  unfold layer_lines. rewrite (marked_all_sentinel g Hg). reflexivity.
Qed.

Lemma all_sentinel_report_witness :
  report "level.json" (document_of [Other; HotSpots empty_grid; Other]) =
    ([header_line "level.json"; "Total: 0 hot spots"], Ret tt).
Proof.
  apply (all_sentinel_report "level.json" _ [Other] [Other] empty_grid).
  - is_level_document.
  - reflexivity.
  - reflexivity.
  - unfold empty_grid. repeat first [lia | apply Forall_nil | apply Forall_cons].
Defined.

Lemma layer_scan_row_major (path : string) (layer : json) (g : grid) :
  hot_spots_layer layer g ->
  stdout (report_layer path layer) =
    (header_line path :: map line_of (marked (cells g)) ++ [total_line (count_marked g)])%list /\
  StronglySorted row_major_lt (marked (cells g)) /\
  (forall r c v,
     In (r, c, v) (marked (cells g)) <-> cell_at g r c = Some v /\ (v <> -1 /\ v <> 0)%Z) /\
  List.length (map line_of (marked (cells g))) = count_marked g.
Proof.
  intros Hl. rewrite (stdout_hot_spots_layer _ _ _ Hl). unfold layer_lines.
  rewrite length_map.
  assert (Hn : List.length (marked (cells g)) = count_marked g)
    by apply marked_cells_from_length.
  rewrite Hn. split; [reflexivity|]. split; [apply marked_cells_sorted|].
  split; [intros r c v; apply marked_cell_at|reflexivity].
Qed.

(** C6: the report of a hot-spots layer is the header, then one line for
    each cell that is neither -1 nor 0, then the line
    [Total: n hot spots] where [n], printed in decimal, is the number of
    these cells.  The cell lines come in row-major order, strictly
    ascending by row index and, within a row, by column index; each such
    cell has its own line, whatever its value, so equal values are not
    merged.  The lines are written out here character by character. *)
Theorem scan_is_row_major (path : string) (layer : json) (g : grid) :
  hot_spots_layer layer g ->
  stdout (report_layer path layer) =
    (("Hot spots in " ++ path ++ ":")%string
       :: map (fun cell : nat * nat * Z =>
                 let '(r, c, v) := cell in
                 ("  [" ++ str_int (Z.of_nat r) ++ "][" ++ str_int (Z.of_nat c) ++ "] = "
                    ++ str_int v ++ " (" ++ label v ++ ") -> pixel ("
                    ++ str_int (Z.of_nat (c * 32)) ++ ", "
                    ++ str_int (Z.of_nat (r * 32)) ++ ")")%string)
              (marked (cells g))
       ++ [("Total: " ++ str_int (Z.of_nat (count_marked g)) ++ " hot spots")%string])%list /\
  StronglySorted row_major_lt (marked (cells g)) /\
  (forall r c v,
     In (r, c, v) (marked (cells g)) <-> cell_at g r c = Some v /\ (v <> -1 /\ v <> 0)%Z) /\
  List.length (marked (cells g)) = count_marked g.
Proof.
  intros Hl. destruct (layer_scan_row_major path layer g Hl) as (Hout & Hsorted & Hin & Hlen).
  rewrite length_map in Hlen.
  split; [exact Hout|]. split; [exact Hsorted|]. split; [exact Hin|exact Hlen].
Qed.

Lemma scan_is_row_major_witness :
  let layer := layer_of (HotSpots mixed_grid) in
  stdout (report_layer "level.json" layer) =
    [ "Hot spots in level.json:";
      "  [0][1] = -2 (DEATH) -> pixel (32, 0)";
      "  [0][2] = 42 (TYPE_42) -> pixel (64, 0)";
      "  [2][0] = -3 (COLLECT) -> pixel (0, 64)";
      "  [2][1] = 1 (GO_RIGHT) -> pixel (32, 64)";
      "  [2][2] = 1 (GO_RIGHT) -> pixel (64, 64)";
      "Total: 5 hot spots" ].
Proof.
  intros layer.
  assert (Hl : hot_spots_layer layer mixed_grid) by is_hot_spots_layer.
  exact (proj1 (scan_is_row_major "level.json" layer mixed_grid Hl)).
Defined.

(** C7: a cell whose value is not -1, not 0 and not a key of the table
    prints its line with the label [TYPE_] followed by the value, and
    with no other label; 42 gives [TYPE_42]. *)
Theorem unmapped_code_label
    (path : string) (layer : json) (g : grid) (r c : nat) (v : Z) (count : nat) :
  hot_spots_layer layer g ->
  cell_at g r c = Some v ->
  (v <> -1)%Z -> (v <> 0)%Z ->
  names_lookup v hot_spot_names = None ->
  scan_cell r c (JInt v) count =
    ([cell_line r c (str_int v) ("TYPE_" ++ str_int v)], Ret (count + 1)) /\
  In (cell_line r c (str_int v) ("TYPE_" ++ str_int v)) (stdout (report_layer path layer)) /\
  (forall name,
     In (cell_line r c (str_int v) name) (stdout (report_layer path layer)) ->
     name = "TYPE_" ++ str_int v) /\
  "TYPE_" ++ str_int 42 = "TYPE_42".
Proof.
  intros Hl Hc Hv1 Hv0 Hnone. rewrite (stdout_hot_spots_layer _ _ _ Hl).
  pose proof (label_unmapped v Hnone) as Hlabel.
  assert (Hs : sentinel v = false) by (apply sentinel_spec; auto).
  repeat split.
  - rewrite scan_cell_int, Hs. unfold line_of. rewrite Hlabel. reflexivity.
  - apply in_layer_lines. split; [|auto]. apply marked_cell_at. auto.
  - intros name Hin. apply in_layer_lines in Hin as [_ ->]. exact Hlabel.
Qed.

Lemma unmapped_code_label_witness :
  let layer := layer_of (HotSpots mixed_grid) in
  scan_cell 0 2 (JInt 42) 1 = ([cell_line 0 2 "42" "TYPE_42"], Ret 2) /\
  In "  [0][2] = 42 (TYPE_42) -> pixel (64, 0)" (stdout (report_layer "level.json" layer)).
Proof.
  intros layer.
  assert (Hl : hot_spots_layer layer mixed_grid) by is_hot_spots_layer.
  assert (Hc : cell_at mixed_grid 0 2 = Some 42%Z) by reflexivity.
  assert (Hv1 : (42 <> -1)%Z) by lia.
  assert (Hv0 : (42 <> 0)%Z) by lia.
  assert (Hn : names_lookup 42 hot_spot_names = None) by reflexivity.
  pose proof (unmapped_code_label "level.json" layer mixed_grid 0 2 42 1 Hl Hc Hv1 Hv0 Hn)
    as (Hcell & Hin & _).
  split; [exact Hcell|exact Hin].
Defined.

(** ** The whole run *)

(** C9: the table gives [NONE] to code 0, yet no cell line carries that
    label.  Whatever JSON value a cell holds, the cell prints nothing or
    one cell line whose label is not [NONE]; and in the output for a
    level document no line is a cell line labelled [NONE]. *)
Theorem label_none_never_printed (path : string) (d : json) (kinds : list layer_kind) :
  level_document d kinds ->
  names_lookup 0 hot_spot_names = Some "NONE" /\
  (forall r c v, ~ In (cell_line r c (str_int v) "NONE") (stdout (report path d))) /\
  (forall r c val count,
     stdout (scan_cell r c val count) = [] \/
     exists sval name,
       stdout (scan_cell r c val count) = [cell_line r c sval name] /\ name <> "NONE").
Proof.
  intros Hd. split; [reflexivity|]. split.
  - intros r c v Hin. rewrite (report_level_document _ _ _ Hd), flat_map_kind_lines in Hin.
    apply in_report_lines in Hin as (g & _ & Hin & Hname).
    apply marked_cell_at in Hin as [_ Hv]. symmetry in Hname.
    apply label_none in Hname. lia.
  - intros r c val count. unfold scan_cell.
    destruct (ne_int val (-1) && ne_int val 0) eqn:Hne; [|auto].
    destruct val as [|[|]|n|s|items|pairs]; cbn [format]; auto; right.
    + exists "None", "TYPE_None". split; [reflexivity|discriminate].
    + exists "True", "GO_RIGHT". split; [reflexivity|discriminate].
    + discriminate Hne.
    + exists (str_int n), (label n). split; [reflexivity|].
      intros Hnone. apply label_none in Hnone. subst n. discriminate Hne.
    + exists s, ("TYPE_" ++ s). split; [reflexivity|discriminate].
Qed.

Lemma label_none_never_printed_witness :
  ~ In (cell_line 0 0 (str_int 0) "NONE")
       (stdout (report "level.json"
                  (document_of [HotSpots [[0; 1]%Z]; Other]))).
Proof.
  assert (Hd : level_document (document_of [HotSpots [[0; 1]%Z]; Other])
                              [HotSpots [[0; 1]%Z]; Other]) by is_level_document.
  exact (proj1 (proj2 (label_none_never_printed "level.json" _ _ Hd)) 0 0 0%Z).
Defined.

(** ** Runs on arbitrary JSON *)

Lemma bind_result_ret {A B} (m : Py A) (k : A -> Py B) (a : A) :
  result m = Ret a -> bind m k = ((stdout m ++ stdout (k a))%list, result (k a)).
Proof. destruct m as [out r]. simpl. intros ->. apply bind_out_ret. Qed.

Lemma bind_result_raise {A B} (m : Py A) (k : A -> Py B) (e : exn) :
  result m = Raise e -> bind m k = (stdout m, Raise e).
Proof. destruct m as [out r]. simpl. intros ->. reflexivity. Qed.

Lemma result_cases {A} (m : Py A) : (exists a, result m = Ret a) \/ (exists e, result m = Raise e).
Proof. destruct m as [out [a|e]]; simpl; eauto. Qed.

Lemma getitem_cases (obj : json) (key : string) :
  (exists v, getitem obj key = ret v) \/
  getitem obj key = raise TypeError \/ getitem obj key = raise (KeyError key).
Proof.
  destruct obj; simpl; auto. destruct (dict_lookup key pairs); eauto.
Qed.

Lemma iter_cases (obj : json) :
  (exists items, iter obj = ret items) \/ iter obj = raise TypeError.
Proof. destruct obj; simpl; eauto. Qed.

Lemma counts_lines_scan_cell (r c : nat) (val : json) (count : nat) :
  counts_lines count (scan_cell r c val count).
Proof.
  unfold scan_cell, counts_lines.
  destruct (ne_int val (-1) && ne_int val 0).
  - destruct (format val) as [sval|]; simpl.
    + split; [repeat constructor; unfold is_cell_line; eauto|]. intros n [= <-]. reflexivity.
    + split; [constructor|discriminate].
  - simpl. split; [constructor|]. intros n [= <-]. lia.
Qed.

Lemma counts_lines_for_enumerate (body : nat -> json -> nat -> Py nat) (xs : list json) :
  (forall i x s, counts_lines s (body i x s)) ->
  forall start s, counts_lines s (for_enumerate start xs body s).
Proof.
  intros Hbody. induction xs as [|x xs IH]; intros start s; cbn [for_enumerate].
  - split; [constructor|]. simpl. intros n [= <-]. lia.
  - destruct (Hbody start x s) as [Hl1 Hn1].
    destruct (result_cases (body start x s)) as [[s' Hs']|[e He]].
    + rewrite (bind_result_ret _ _ _ Hs'). destruct (IH (S start) s') as [Hl2 Hn2].
      split; simpl.
      * apply Forall_app. auto.
      * intros n Hn. rewrite length_app, (Hn2 n Hn), (Hn1 s' Hs'). lia.
    + rewrite (bind_result_raise _ _ _ He). split; [exact Hl1|discriminate].
Qed.

Lemma counts_lines_scan_row (r : nat) (row : json) (count : nat) :
  counts_lines count (scan_row r row count).
Proof.
  unfold scan_row. destruct (iter_cases row) as [[cells ->]| ->].
  - rewrite bind_ret. apply counts_lines_for_enumerate. intros i x s.
    apply counts_lines_scan_cell.
  - rewrite bind_raise. split; [constructor|discriminate].
Qed.

Lemma counts_lines_rows (rows : list json) :
  counts_lines 0 (for_enumerate 0 rows scan_row 0).
Proof. apply counts_lines_for_enumerate. intros i x s. apply counts_lines_scan_row. Qed.

Lemma layer_output_shape (path : string) (layer : json) :
  stdout (report_layer path layer) = [] \/
  exists lines,
    Forall is_cell_line lines /\
    ((result (report_layer path layer) = Ret tt /\
      stdout (report_layer path layer) =
        (header_line path :: lines ++ [total_line (List.length lines)])%list) \/
     ((exists e, result (report_layer path layer) = Raise e) /\
      stdout (report_layer path layer) = header_line path :: lines)).
Proof.
  unfold report_layer.
  destruct (getitem_cases layer "type") as [[ty ->]|[->| ->]]; [|left; reflexivity..].
  rewrite bind_ret. destruct (eq_str ty "hot_spots"); [|left; reflexivity].
  right. rewrite bind_print. cbn [stdout result fst snd].
  destruct (getitem_cases layer "world") as [[world ->]|[->| ->]];
    [|exists []; split; [constructor|right; split; [eexists; reflexivity|reflexivity]]..].
  rewrite bind_ret.
  destruct (getitem_cases world "tiles") as [[tiles ->]|[->| ->]];
    [|exists []; split; [constructor|right; split; [eexists; reflexivity|reflexivity]]..].
  rewrite bind_ret.
  destruct (iter_cases tiles) as [[rows ->]| ->];
    [|exists []; split; [constructor|right; split; [eexists; reflexivity|reflexivity]]].
  rewrite bind_ret. destruct (counts_lines_rows rows) as [Hl Hn].
  exists (stdout (for_enumerate 0 rows scan_row 0)). split; [exact Hl|].
  destruct (result_cases (for_enumerate 0 rows scan_row 0)) as [[n Hr]|[e Hr]].
  - left. rewrite (bind_result_ret _ _ _ Hr). rewrite (Hn n Hr). simpl. auto.
  - right. rewrite (bind_result_raise _ _ _ Hr). simpl. eauto.
Qed.

(** X3: what a layer prints, whatever value of the model it is:
    nothing; or the header, cell lines and the line [Total: n hot spots]
    where [n], printed in decimal, is the number of those cell lines,
    when the layer is scanned to the end; or the header and cell lines
    with no total, when an exception stops the scan.  The lines are
    written out here character by character. *)
Theorem total_counts_printed_cells (path : string) (layer : json) :
  stdout (report_layer path layer) = [] \/
  exists lines,
    Forall (fun line =>
              exists r c sval name,
                line =
                  "  [" ++ str_int (Z.of_nat r) ++ "][" ++ str_int (Z.of_nat c) ++ "] = "
                    ++ sval ++ " (" ++ name ++ ") -> pixel ("
                    ++ str_int (Z.of_nat (c * 32)) ++ ", "
                    ++ str_int (Z.of_nat (r * 32)) ++ ")") lines /\
    ((result (report_layer path layer) = Ret tt /\
      stdout (report_layer path layer) =
        (("Hot spots in " ++ path ++ ":")%string :: lines
           ++ [("Total: " ++ str_int (Z.of_nat (List.length lines)) ++ " hot spots")%string])%list) \/
     ((exists e, result (report_layer path layer) = Raise e) /\
      stdout (report_layer path layer) = ("Hot spots in " ++ path ++ ":") :: lines)).
Proof. exact (layer_output_shape path layer). Qed.

(** ** Failing layers *)

Lemma for_each_all_ret (body : json -> Py unit) (xs : list json) :
  Forall (fun x => result (body x) = Ret tt) xs -> result (for_each xs body) = Ret tt.
Proof.
  induction 1 as [|x xs Hx _ IH]; [reflexivity|].
  cbn [for_each]. rewrite (bind_result_ret _ _ _ Hx). exact IH.
Qed.

(** X4: when a layer raises, the run ends there: what the earlier layers and
    the failing layer printed stands, the exception is the run's ending,
    and the layers after it are never looked at. *)
Theorem failing_layer_ends_run
    (path : string) (d : json) (before after : list json) (layer : json)
    (out : list string) (e : exn) :
  getitem d "layers" = ret (JList (before ++ layer :: after)) ->
  Forall (fun l => result (report_layer path l) = Ret tt) before ->
  report_layer path layer = (out, Raise e) ->
  report path d = ((stdout (for_each before (report_layer path)) ++ out)%list, Raise e).
Proof.
  intros Hd Hbefore Hlayer. unfold report. rewrite Hd, bind_ret. cbn [iter].
  rewrite bind_ret, for_each_app.
  rewrite (bind_result_ret _ _ _ (for_each_all_ret _ _ Hbefore)).
  cbn [for_each]. rewrite Hlayer. reflexivity.
Qed.

Lemma failing_layer_ends_run_witness :
  report "level.json" untyped_layer_document =
    ([ "Hot spots in level.json:";
       "  [0][0] = 1 (GO_RIGHT) -> pixel (0, 0)";
       "Total: 1 hot spots" ], Raise (KeyError "type")).
Proof.
  apply (failing_layer_ends_run "level.json" untyped_layer_document
           [ JDict [("type", JStr "hot_spots");
                    ("world", JDict [("tiles", JList [JList [JInt 1]])])] ]
           [ JDict [("type", JStr "hot_spots");
                    ("world", JDict [("tiles", JList [JList [JInt 2]])])] ]
           (JDict [("name", JStr "decor")]) [] (KeyError "type")).
  - reflexivity.
  - repeat constructor.
  - reflexivity.
Defined.

(** X5: a layer of type ["hot_spots"] that has no [world], no [tiles] in it,
    or tiles that cannot be iterated, gets its header printed and then
    fails: the header stands alone, with no total. *)
Theorem header_stands_without_tiles (path : string) (layer : json) :
  getitem layer "type" = ret (JStr "hot_spots") ->
  (forall world tiles rows,
     getitem layer "world" = ret world -> getitem world "tiles" = ret tiles ->
     iter tiles <> ret rows) ->
  stdout (report_layer path layer) = [header_line path] /\
  exists e, result (report_layer path layer) = Raise e /\
            (e = TypeError \/ e = KeyError "world" \/ e = KeyError "tiles").
Proof.
  intros Hty Hno. unfold report_layer. rewrite Hty, bind_ret.
  cbn [eq_str String.eqb Ascii.eqb Bool.eqb]. rewrite bind_print. cbn [stdout result fst snd].
  destruct (getitem_cases layer "world") as [[world Hw]|[Hw|Hw]]; rewrite Hw;
    [|split; [reflexivity|eexists; split; [reflexivity|auto]]..].
  rewrite bind_ret.
  destruct (getitem_cases world "tiles") as [[tiles Ht]|[Ht|Ht]]; rewrite Ht;
    [|split; [reflexivity|eexists; split; [reflexivity|auto]]..].
  rewrite bind_ret.
  destruct (iter_cases tiles) as [[rows Hr]|Hr].
  - destruct (Hno world tiles rows Hw Ht Hr).
  - rewrite Hr. split; [reflexivity|eexists; split; [reflexivity|auto]].
Qed.

Lemma header_stands_without_tiles_witness :
  stdout (report_layer "level.json" worldless_layer) = [header_line "level.json"] /\
  exists e, result (report_layer "level.json" worldless_layer) = Raise e /\
            (e = TypeError \/ e = KeyError "world" \/ e = KeyError "tiles").
Proof.
  apply (header_stands_without_tiles "level.json" worldless_layer).
  - reflexivity.
  - intros world tiles rows H. discriminate H.
Defined.

Lemma bind_ext {A B} (m : Py A) (k k' : A -> Py B) :
  (forall a, k a = k' a) -> bind m k = bind m k'.
Proof. intros H. destruct m as [out [a|e]]; simpl; [rewrite H|]; reflexivity. Qed.

Lemma for_enumerate_app {St} (body : nat -> json -> St -> Py St) (xs ys : list json) :
  forall start s,
    for_enumerate start (xs ++ ys) body s =
      (s' <- for_enumerate start xs body s ;;
       for_enumerate (start + List.length xs) ys body s').
Proof.
  induction xs as [|x xs IH]; intros start s; cbn [for_enumerate app List.length].
  - rewrite bind_ret, Nat.add_0_r. reflexivity.
  - rewrite bind_assoc. apply bind_ext. intros s'.
    replace (start + S (List.length xs)) with (S start + List.length xs) by lia.
    apply IH.
Qed.

Lemma cells_from_app (g1 g2 : grid) :
  forall start,
    cells_from start (g1 ++ g2)%list =
      (cells_from start g1 ++ cells_from (start + List.length g1) g2)%list.
Proof.
  induction g1 as [|row g1 IH]; intros start; cbn [app List.length].
  - rewrite Nat.add_0_r. reflexivity.
  - rewrite !cells_from_cons, IH, app_assoc.
    replace (start + S (List.length g1)) with (S start + List.length g1) by lia.
    reflexivity.
Qed.

Lemma scan_cell_unhashable (r c : nat) (val : json) (count : nat) :
  (exists items, val = JList items) \/ (exists pairs, val = JDict pairs) ->
  scan_cell r c val count = raise TypeError.
Proof. intros [[items ->]|[pairs ->]]; reflexivity. Qed.

Lemma scan_row_unhashable (r : nat) (left : list Z) (val : json) (right : list json)
    (count : nat) :
  (exists items, val = JList items) \/ (exists pairs, val = JDict pairs) ->
  scan_row r (JList (map JInt left ++ val :: right)%list) count =
    (map line_of (marked (row_cells r 0 left)), Raise TypeError).
Proof.
  intros Hval. unfold scan_row. cbn [iter].
  rewrite bind_ret, for_enumerate_app, scan_cells_int, bind_out_ret.
  cbn [for_enumerate]. rewrite (scan_cell_unhashable _ _ _ _ Hval), bind_raise.
  cbn [stdout result raise fst snd]. rewrite app_nil_r. reflexivity.
Qed.

Lemma scan_rows_unhashable (above : grid) (left : list Z) (val : json)
    (right below : list json) :
  (exists items, val = JList items) \/ (exists pairs, val = JDict pairs) ->
  for_enumerate 0
    (map (fun row => JList (map JInt row)) above
       ++ JList (map JInt left ++ val :: right)%list :: below)%list scan_row 0 =
    (map line_of (marked (cells (above ++ [left])%list)), Raise TypeError).
Proof.
  intros Hval. rewrite for_enumerate_app, scan_rows_int, bind_out_ret.
  cbn [for_enumerate]. rewrite (scan_row_unhashable _ _ _ _ _ Hval).
  cbn [bind stdout result fst snd].
  unfold cells. rewrite cells_from_app, marked_app, map_app, length_map.
  cbn [cells_from enumerate List.length seq combine flat_map fst snd].
  rewrite !app_nil_r. reflexivity.
Qed.

(** X6: a list or dict where a code should be stops the scan with a
    [TypeError]: the header, the lines of the rows above and the lines of
    the cells to its left in its own row are printed, nothing after, and
    no total. *)
Theorem unhashable_cell_stops_scan
    (path : string) (layer world : json) (above : grid) (left : list Z)
    (val : json) (right below : list json) :
  getitem layer "type" = ret (JStr "hot_spots") ->
  getitem layer "world" = ret world ->
  getitem world "tiles" =
    ret (JList (map (fun row => JList (map JInt row)) above
                  ++ JList (map JInt left ++ val :: right)%list :: below)%list) ->
  (exists items, val = JList items) \/ (exists pairs, val = JDict pairs) ->
  report_layer path layer =
    (header_line path :: map line_of (marked (cells (above ++ [left])%list)), Raise TypeError).
Proof.
  intros Hty Hworld Htiles Hval. unfold report_layer.
  rewrite Hty, bind_ret. cbn [eq_str String.eqb Ascii.eqb Bool.eqb].
  rewrite bind_print, Hworld, bind_ret, Htiles, bind_ret. cbn [iter].
  rewrite bind_ret, (scan_rows_unhashable _ _ _ _ _ Hval). reflexivity.
Qed.

Lemma unhashable_cell_stops_scan_witness :
  report_layer "level.json" broken_cell_layer =
    ([ "Hot spots in level.json:";
       "  [0][1] = 5 (GO_UP_RIGHT) -> pixel (32, 0)";
       "  [2][0] = 9 (WAIT_SHORT) -> pixel (0, 64)" ], Raise TypeError).
Proof.
  apply (unhashable_cell_stops_scan "level.json" broken_cell_layer
           (JDict [("tiles", JList
              [ JList [JInt 0; JInt 5];
                JList [];
                JList [JInt 9; JInt (-1); JList [JInt 1]; JInt 3];
                JList [JInt 2] ])])
           [[0; 5]; []]%Z [9; -1]%Z (JList [JInt 1]) [JInt 3] [JList [JInt 2]]).
  - reflexivity.
  - reflexivity.
  - reflexivity.
  - left. eexists. reflexivity.
Defined.

(** ** Labels and lines *)

Lemma type_label_inj (a b : Z) : "TYPE_" ++ str_int a = "TYPE_" ++ str_int b -> a = b.
Proof. simpl. intros [= H]. apply str_int_inj, H. Qed.

(** X7: the label tells the code: two integer codes with the same label are
    the same code, be they in the table or not. *)
Theorem label_inj (v w : Z) : label v = label w -> v = w.
Proof.
  unfold label, names_get, hot_spot_names, names_lookup.
  repeat match goal with
         | |- context [Z.eqb ?k v] => destruct (Z.eqb_spec k v) as [<-|_]
         end;
  repeat match goal with
         | |- context [Z.eqb ?k w] => destruct (Z.eqb_spec k w) as [<-|_]
         end;
  try reflexivity; try (simpl; discriminate); apply type_label_inj.
Qed.

Lemma label_inj_witness : label 7 = label (3 + 4) /\ (7 = 3 + 4)%Z.
Proof. split; [reflexivity|]. apply (label_inj 7 (3 + 4)). reflexivity. Defined.

Lemma nodup_map_inj {A B} (f : A -> B) (xs : list A) :
  (forall x y, f x = f y -> x = y) -> NoDup xs -> NoDup (map f xs).
Proof.
  intros Hinj. induction 1 as [|x xs Hx _ IH]; simpl; constructor; [|exact IH].
  intros Hin. apply in_map_iff in Hin as (y & Hy & Hin). apply Hinj in Hy. congruence.
Qed.

Lemma nodup_snoc {A} (xs : list A) (x : A) : NoDup xs -> ~ In x xs -> NoDup (xs ++ [x]).
Proof.
  induction 1 as [|y ys Hy _ IH]; simpl; intros Hx.
  - constructor; [intros []|constructor].
  - constructor.
    + rewrite in_app_iff. simpl. intros [H|[->|[]]]; [auto|apply Hx; auto].
    + apply IH. intros H. apply Hx. auto.
Qed.

Lemma header_not_total (path : string) (count : nat) : header_line path <> total_line count.
Proof. discriminate. Qed.

(** X8: the report of a hot-spots layer with an integer grid has no line
    twice, and a cell line belongs to one cell only: row, column and
    value can be read back from it. *)
Theorem layer_report_lines_distinct (path : string) (layer : json) (g : grid) :
  hot_spots_layer layer g ->
  NoDup (stdout (report_layer path layer)) /\
  (forall r c v r' c' v',
     cell_line r c (str_int v) (label v) = cell_line r' c' (str_int v') (label v') ->
     r = r' /\ c = c' /\ v = v').
Proof.
  intros Hl. rewrite (stdout_hot_spots_layer _ _ _ Hl). split.
  - unfold layer_lines. constructor.
    + rewrite in_app_iff, in_map_iff. simpl.
      intros [([[r c] v] & H & _)|[H|[]]].
      * unfold line_of in H. apply cell_line_not_header in H. exact H.
      * symmetry in H. apply (header_not_total path _ H).
    + apply nodup_snoc.
      * apply nodup_map_inj; [exact line_of_inj|apply marked_cells_nodup].
      * rewrite in_map_iff. intros ([[r c] v] & H & _).
        unfold line_of in H. apply cell_line_not_total in H. exact H.
  - intros r c v r' c' v' H.
    apply (line_of_inj (r, c, v) (r', c', v')) in H. injection H. auto.
Qed.

Lemma layer_report_lines_distinct_witness :
  NoDup (stdout (report_layer "level.json" (layer_of (HotSpots mixed_grid)))).
Proof.
  assert (Hl : hot_spots_layer (layer_of (HotSpots mixed_grid)) mixed_grid)
    by is_hot_spots_layer.
  exact (proj1 (layer_report_lines_distinct "level.json" _ mixed_grid Hl)).
Defined.

(** ** Documents and their layers *)

Lemma bind_stdout_prefix {A B} (m : Py A) (k : A -> Py B) :
  exists rest, stdout (bind m k) = (stdout m ++ rest)%list.
Proof.
  destruct (result_cases m) as [[a Ha]|[e He]].
  - rewrite (bind_result_ret _ _ _ Ha). simpl. eauto.
  - rewrite (bind_result_raise _ _ _ He). exists []. simpl. rewrite app_nil_r. reflexivity.
Qed.

(** X9: layers added at the end of a document leave what is printed for the
    layers before them as it is: the longer document's output starts with
    the shorter one's, and when the shorter run ends with an exception
    the longer run is the same run. *)
Theorem appended_layers_extend_output
    (path : string) (d d' : json) (layers more : list json) :
  getitem d "layers" = ret (JList layers) ->
  getitem d' "layers" = ret (JList (layers ++ more)%list) ->
  (exists rest, stdout (report path d') = (stdout (report path d) ++ rest)%list) /\
  (forall e, result (report path d) = Raise e -> report path d' = report path d).
Proof.
  intros Hd Hd'. unfold report. rewrite Hd, Hd', !bind_ret. cbn [iter].
  rewrite !bind_ret, for_each_app. split.
  - apply bind_stdout_prefix.
  - intros e He. rewrite (bind_result_raise _ _ _ He).
    destruct (for_each layers (report_layer path)) as [out r]. simpl in *. congruence.
Qed.

Lemma appended_layers_extend_output_witness :
  exists rest,
    stdout (report "level.json" two_hot_spots_layers) =
      (stdout (report "level.json" (document_of [HotSpots [[1%Z]]])) ++ rest)%list.
Proof.
  apply (appended_layers_extend_output "level.json"
           (document_of [HotSpots [[1%Z]]]) two_hot_spots_layers
           [ JDict [("type", JStr "hot_spots");
                    ("world", JDict [("tiles", JList [JList [JInt 1]])])] ]
           [ JDict [("type", JStr "hot_spots");
                    ("world", JDict [("tiles", JList [JList [JInt 2]])])] ]).
  - reflexivity.
  - reflexivity.
Defined.

Lemma report_layer_str (path s : string) : report_layer path (JStr s) = raise TypeError.
Proof. reflexivity. Qed.

(** X10: when [layers] is missing or is not a list, nothing is printed.  The
    run then ends normally only if [layers] is an empty dict or an empty
    string; a dict or string that is not empty is iterated, and its first
    key or character, being a string, fails the [type] subscript. *)
Theorem no_layer_list_prints_nothing (path : string) (d : json) :
  (forall items, getitem d "layers" <> ret (JList items)) ->
  stdout (report path d) = [] /\
  (result (report path d) = Ret tt <->
     getitem d "layers" = ret (JDict []) \/ getitem d "layers" = ret (JStr EmptyString)).
Proof.
  intros Hno. unfold report.
  destruct (getitem_cases d "layers") as [[layers Hd]|[Hd|Hd]]; rewrite Hd.
  - rewrite bind_ret.
    destruct layers as [|b|n|s|items|pairs]; cbn [iter];
      try (rewrite bind_raise; split; [reflexivity|];
           split; [discriminate|intros [H|H]; discriminate H]).
    + destruct s as [|ch s]; cbn [chars]; rewrite bind_ret; cbn [for_each].
      * split; [reflexivity|]. split; auto.
      * rewrite report_layer_str, bind_raise. split; [reflexivity|].
        split; [discriminate|intros [H|H]; discriminate H].
    + destruct (Hno items Hd).
    + destruct pairs as [|[k v] pairs]; cbn [map fst]; rewrite bind_ret; cbn [for_each].
      * split; [reflexivity|]. split; auto.
      * rewrite report_layer_str, bind_raise. split; [reflexivity|].
        split; [discriminate|intros [H|H]; discriminate H].
  - rewrite bind_raise. split; [reflexivity|].
    split; [discriminate|intros [H|H]; discriminate H].
  - rewrite bind_raise. split; [reflexivity|].
    split; [discriminate|intros [H|H]; discriminate H].
Qed.

Lemma no_layer_list_prints_nothing_witness :
  stdout (report "level.json" (JDict [("layers", JDict [("0", JDict [("type", JStr "hot_spots")])])])) = [].
Proof.
  apply (no_layer_list_prints_nothing "level.json"
           (JDict [("layers", JDict [("0", JDict [("type", JStr "hot_spots")])])])).
  intros items H. discriminate H.
Defined.
